(** * Order controller of the E-Commerce backend

    A shallow embedding of [controller/device/v1/orderController.js]: the six
    request handlers [addOrder], [findAllOrder], [getOrder], [getOrderCount],
    [updateOrder] and [partialUpdateOrder], written in a small state and
    exception monad over the request object, the document store and the
    sequence of calls and responses a handler makes. *)

From stdpp Require Import gmap strings list fin_maps pretty.

Local Set Warnings "-register-all".

(** ** JavaScript values *)

(** JSON-shaped values.  Numbers are the integers: the handlers only test a
    number for being zero and read array lengths and counts. *)
Inductive value : Type :=
| VUndefined
| VNull
| VBool (b : bool)
| VNum (n : Z)
| VStr (s : string)
| VArr (l : list value)
| VObj (o : gmap string value).

(** An object is a finite map from property names to values. *)
Abbreviation jsobj := (gmap string value).

(** An [Error] object as far as the handlers look at it: [error.message]. *)
Record js_error : Type := JsError { err_name : string; err_message : string }.

(** What evaluating an expression gives: a value, or a thrown error. *)
Inductive outcome (A : Type) : Type :=
| Ok (a : A)
| Threw (e : js_error).
Arguments Ok {A} a.
Arguments Threw {A} e.

(** [!!v]: every value but [undefined], [null], [false], [0] and the empty
    string is truthy. *)
Definition truthy (v : value) : bool :=
  match v with
  | VUndefined | VNull => false
  | VBool b => b
  | VNum n => negb (n =? 0)%Z
  | VStr s => negb (String.eqb s "")
  | VArr _ | VObj _ => true
  end.

(** [typeof v === 'object' && v !== null]. *)
Definition is_object (v : value) : bool :=
  match v with
  | VArr _ | VObj _ => true
  | _ => false
  end.

(** [a || b]. *)
Definition or_else (a b : value) : value := if truthy a then a else b.

(** The index-keyed own properties of an array-like: ["0"], ["1"], ... *)
Definition indexed (l : list value) : jsobj :=
  list_to_map (imap (fun i x => (pretty i, x)) l).

Definition chars (s : string) : list value :=
  (fun c => VStr (String c EmptyString)) <$> String.list_ascii_of_string s.

(** The own enumerable properties an object spread [{ ...v }] copies:
    nothing for [undefined], [null], booleans and numbers. *)
Definition spread (v : value) : jsobj :=
  match v with
  | VObj o => o
  | VArr l => indexed l
  | VStr s => indexed (chars s)
  | _ => ∅
  end.

(** [let x = {}; if (typeof v === 'object' && v !== null) { x = { ...v }; }]:
    the copy the handlers take of a filter or of the options. *)
Definition object_or_empty (v : value) : jsobj :=
  if is_object v then spread v else ∅.

(** Reading a property of an object that has it or not: [o.k]. *)
Definition get_field (o : jsobj) (k : string) : value := default VUndefined (o !! k).

Definition type_name (v : value) : string :=
  match v with VNull => "null" | _ => "undefined" end.

Definition TypeError (msg : string) : js_error := JsError "TypeError" msg.

(** [v.k] for any value [v]: a [TypeError] on [undefined] and [null], the
    [length] of arrays and strings, own properties otherwise. *)
Definition get_prop (v : value) (k : string) : outcome value :=
  match v with
  | VUndefined | VNull =>
      Threw (TypeError ("Cannot read properties of " +:+ type_name v
                        +:+ " (reading '" +:+ k +:+ "')"))
  | VObj o => Ok (get_field o k)
  | VArr l =>
      Ok (if String.eqb k "length" then VNum (Z.of_nat (length l))
          else get_field (indexed l) k)
  | VStr s =>
      Ok (if String.eqb k "length" then VNum (Z.of_nat (String.length s))
          else get_field (indexed (chars s)) k)
  | VBool _ | VNum _ => Ok VUndefined
  end.

(** [delete v[k]]: removes the property from an object, throws on
    [undefined] and [null], and leaves any other value as it is. *)
Definition delete_prop (v : value) (k : string) : outcome value :=
  match v with
  | VUndefined | VNull => Threw (TypeError "Cannot convert undefined or null to object")
  | VObj o => Ok (VObj (delete k o))
  | _ => Ok v
  end.

(** ** Requests, responses and the world a handler runs in *)

(** The Express request as the handlers read it: [req.body], [req.params]
    (always an object) and [req.user], set by the auth middleware. *)
Record request : Type := Request { body : value; params : jsobj; user : value }.

(** The response envelopes.
    Modelled from the spec: the response helpers [res.success],
    [res.validationError], [res.badRequest], [res.recordNotFound] and
    [res.internalServerError] are installed by a middleware that is not part
    of the sources at hand; each sends the envelope of its name with the
    [data] or [message] it is given. *)
Inductive envelope : Type :=
| SUCCESS (data : value)
| VALIDATION_ERROR (message : string)
| BAD_REQUEST (message : string)
| RECORD_NOT_FOUND
| INTERNAL_SERVER_ERROR (message : string).

(** The three key sets exported by [utils/validation/orderValidation]. *)
Inductive schema_keys : Type := schemaKeys | updateSchemaKeys | findFilterKeys.

(** The calls a handler makes on [dbService]. *)
Inductive db_call : Type :=
| DbCreate (doc : jsobj)
| DbFindOne (query options : jsobj)
| DbCount (query : jsobj)
| DbPaginate (query options : jsobj)
| DbUpdateOne (query patch : jsobj).

(** Everything a handler does to the outside, in order. *)
Inductive event : Type :=
| CallValidateParams (payload : value) (keys : schema_keys)
| CallValidateFilter (payload : value) (keys : schema_keys) (shape : option value)
| CallDb (c : db_call)
| Respond (e : envelope).

(** The request object (shared with the caller, and mutable), the Order
    collection, and the events so far. *)
Record world : Type := World { req : request; db : list jsobj; trace : list event }.

Definition log (ev : event) (w : world) : world :=
  World (req w) (db w) (trace w ++ [ev]).

Definition set_db (s : list jsobj) (w : world) : world :=
  World (req w) s (trace w).

Definition set_body (b : value) (w : world) : world :=
  World (Request b (params (req w)) (user (req w))) (db w) (trace w).

(** The envelopes sent, oldest first. *)
Definition responses (w : world) : list envelope :=
  omap (fun ev => match ev with Respond e => Some e | _ => None end) (trace w).

(** The [dbService] calls made, oldest first. *)
Definition db_calls (w : world) : list db_call :=
  omap (fun ev => match ev with CallDb c => Some c | _ => None end) (trace w).

(** ** The handler monad: state over [world], with exceptions *)

Definition M (A : Type) : Type := world -> outcome A * world.

Definition ret {A} (a : A) : M A := fun w => (Ok a, w).

Definition bind {A B} (m : M A) (k : A -> M B) : M B :=
  fun w => match m w with
           | (Ok a, w') => k a w'
           | (Threw e, w') => (Threw e, w')
           end.

Notation "x <- m ;; k" := (bind m (fun x => k))
  (at level 100, m at next level, right associativity,
   format "'[v' x  <-  m  ;;  '/' k ']'").
Notation "m ;;; k" := (bind m (fun _ => k))
  (at level 100, right associativity, format "'[v' m  ;;;  '/' k ']'").

(** [try { m } catch (error) { h error }]. *)
Definition try_catch {A} (m : M A) (h : js_error -> M A) : M A :=
  fun w => match m w with
           | (Ok a, w') => (Ok a, w')
           | (Threw e, w') => h e w'
           end.

Definition lift {A} (o : outcome A) : M A := fun w => (o, w).

Definition emit (ev : event) : M unit := fun w => (Ok tt, log ev w).

(** [req.body], [req.params.id] and [req.user.id]. *)
Definition req_body : M value := fun w => (Ok (body (req w)), w).
Definition req_params_id : M value := fun w => (Ok (get_field (params (req w)) "id"), w).
Definition req_user_id : M value := fun w => (get_prop (user (req w)) "id", w).

(** [delete req.body[k]]: the request object itself is changed. *)
Definition delete_req_body (k : string) : M unit :=
  fun w => match delete_prop (body (req w)) k with
           | Ok b => (Ok tt, set_body b w)
           | Threw e => (Threw e, w)
           end.

(** The response helpers. *)
Definition res_success (data : value) : M unit := emit (Respond (SUCCESS data)).
Definition res_validationError (message : string) : M unit :=
  emit (Respond (VALIDATION_ERROR message)).
Definition res_badRequest (message : string) : M unit :=
  emit (Respond (BAD_REQUEST message)).
Definition res_recordNotFound : M unit := emit (Respond RECORD_NOT_FOUND).
Definition res_internalServerError (message : string) : M unit :=
  emit (Respond (INTERNAL_SERVER_ERROR message)).

(** ** The collaborators of the controller *)

(** [{ isValid, message }], as both validators return it. *)
Record verdict : Type := Verdict { isValid : bool; message : string }.

(** What the controller requires and the sources at hand do not hold: the
    two validators of [utils/validateRequest] (each interprets the key sets
    of [orderValidation]), the model's [Order.schema.obj], [ObjectId.isValid]
    of the mongodb driver, and, for the store behind [dbService], when a
    query matches a document, when a call fails, which identity a new
    document gets, the page size used when the options give none and the
    paging metadata of a page.  The handlers are defined, and their
    properties proved, for any choice of these. *)
Class Collaborators : Type := {
  validateParamsWithJoi : value -> schema_keys -> outcome verdict;
  validateFilterWithJoi : value -> schema_keys -> option value -> outcome verdict;
  Order_schema_obj : value;
  ObjectId_isValid : value -> bool;
  matches : jsobj -> jsobj -> bool;
  db_fault : list jsobj -> db_call -> option js_error;
  new_id : list jsobj -> value;
  default_limit : nat;
  page_info : jsobj -> nat -> jsobj
}.

Section Controller.
Context {C : Collaborators}.

(** [validation.validateParamsWithJoi(payload, keys)]. *)
Definition validate_params (payload : value) (keys : schema_keys) : M verdict :=
  emit (CallValidateParams payload keys) ;;;
  lift (validateParamsWithJoi payload keys).

(** [validation.validateFilterWithJoi(payload, keys, shape)]. *)
Definition validate_filter (payload : value) (keys : schema_keys)
    (shape : option value) : M verdict :=
  emit (CallValidateFilter payload keys shape) ;;;
  lift (validateFilterWithJoi payload keys shape).

(** *** dbService *)

(** One call on the store: it is recorded, fails with the store's error when
    the store says so, and otherwise gives its result and the new store. *)
Definition db_run {A} (c : db_call) (k : list jsobj -> A * list jsobj) : M A :=
  fun w =>
    match db_fault (db w) c with
    | Some e => (Threw e, log (CallDb c) w)
    | None => let '(a, s) := k (db w) in (Ok a, set_db s (log (CallDb c) w))
    end.

(** The documents of the store a query matches, in store order. *)
Definition hits (query : jsobj) (s : list jsobj) : list jsobj :=
  List.filter (matches query) s.

(** Modelled from the spec: the model [model/order] is not part of the
    sources at hand.  A resource document is a schema-less record at run
    time, so [new Order(data)] keeps the fields it is given. *)
Definition Order_new (data : jsobj) : jsobj := data.

(** Modelled from the spec: [utils/dbService] is not part of the sources at
    hand.  [create] inserts one document and returns the stored document,
    including its assigned identity. *)
Definition dbService_create (doc : jsobj) : M value :=
  db_run (DbCreate doc)
    (fun s => let stored := <["_id" := new_id s]> doc in (VObj stored, s ++ [stored])).

(** Modelled from the spec: [findOne] returns the first matching document
    or an explicit not-found sentinel, here [null]. *)
Definition dbService_findOne (query options : jsobj) : M value :=
  db_run (DbFindOne query options)
    (fun s => (from_option VObj VNull (head (hits query s)), s)).

(** Modelled from the spec: [count] returns the number of documents that
    match the query. *)
Definition dbService_count (query : jsobj) : M value :=
  db_run (DbCount query)
    (fun s => (VNum (Z.of_nat (length (hits query s))), s)).

Definition pagination_enabled (options : jsobj) : bool :=
  match options !! "pagination" with
  | Some (VBool false) => false
  | _ => true
  end.

(** The 1-based page index. *)
Definition page_of (options : jsobj) : nat :=
  match options !! "page" with
  | Some (VNum n) => if (0 <? n)%Z then Z.to_nat n else 1
  | _ => 1
  end.

(** The page size. *)
Definition limit_of (options : jsobj) : nat :=
  match options !! "limit" with
  | Some (VNum n) => if (0 <=? n)%Z then Z.to_nat n else default_limit
  | _ => default_limit
  end.

Definition page_data (options : jsobj) (found : list jsobj) : list jsobj :=
  if pagination_enabled options
  then take (limit_of options) (drop ((page_of options - 1) * limit_of options) found)
  else found.

(** Modelled from the spec: [paginate] returns [{data, totalRecords}] and
    paging metadata, honouring [page], [limit] and [pagination]; with
    pagination disabled it returns all matches. *)
Definition dbService_paginate (query options : jsobj) : M value :=
  db_run (DbPaginate query options)
    (fun s =>
       let found := hits query s in
       (VObj (<["data" := VArr (VObj <$> page_data options found)]>
              (<["totalRecords" := VNum (Z.of_nat (length found))]>
               (page_info options (length found)))), s)).

(** The store with the patch applied to its first document matching the
    query, and that document as updated; [None] when none matches. *)
Fixpoint update_first (query patch : jsobj) (s : list jsobj)
    : option (jsobj * list jsobj) :=
  match s with
  | [] => None
  | d :: s' =>
      if matches query d then Some (patch ∪ d, (patch ∪ d) :: s')
      else match update_first query patch s' with
           | Some (d', s'') => Some (d', d :: s'')
           | None => None
           end
  end.

(** Modelled from the spec: [updateOne] applies the patch fields to the
    first document matching the query; it returns the updated document, or
    the not-found sentinel if no document matched. *)
Definition dbService_updateOne (query patch : jsobj) : M value :=
  db_run (DbUpdateOne query patch)
    (fun s => match update_first query patch s with
              | Some (d, s') => (VObj d, s')
              | None => (VNull, s)
              end).

(** *** The handlers *)

(** What the [catch] clause of every handler does. *)
Definition on_error (error : js_error) : M unit :=
  res_internalServerError (err_message error).

(** The [try] block of [addOrder]. *)
Definition addOrder_try : M unit :=
  reqBody <- req_body ;;
  let dataToCreate := spread (or_else reqBody (VObj ∅)) in
  validateRequest <- validate_params (VObj dataToCreate) schemaKeys ;;
  if negb (isValid validateRequest) then
    res_validationError
      ("Invalid values in parameters, " +:+ message validateRequest)
  else
    userId <- req_user_id ;;
    let dataToCreate := <["addedBy" := userId]> dataToCreate in
    let dataToCreate := Order_new dataToCreate in
    createdOrder <- dbService_create dataToCreate ;;
    res_success createdOrder.

Definition addOrder : M unit := try_catch addOrder_try on_error.

(** The [try] block of [findAllOrder]. *)
Definition findAllOrder_try : M unit :=
  reqBody <- req_body ;;
  validateRequest <- validate_filter reqBody findFilterKeys (Some Order_schema_obj) ;;
  if negb (isValid validateRequest) then
    res_validationError (message validateRequest)
  else
    bodyQuery <- lift (get_prop reqBody "query") ;;
    let query := object_or_empty bodyQuery in
    isCountOnly <- lift (get_prop reqBody "isCountOnly") ;;
    if truthy isCountOnly then
      totalRecords <- dbService_count query ;;
      res_success (VObj {["totalRecords" := totalRecords]})
    else
      options <- (if truthy reqBody then
                    bodyOptions <- lift (get_prop reqBody "options") ;;
                    ret (object_or_empty bodyOptions)
                  else ret ∅) ;;
      foundOrders <- dbService_paginate query options ;;
      if negb (truthy foundOrders) then res_recordNotFound
      else
        data <- lift (get_prop foundOrders "data") ;;
        if negb (truthy data) then res_recordNotFound
        else
          len <- lift (get_prop data "length") ;;
          if negb (truthy len) then res_recordNotFound
          else res_success foundOrders.

Definition findAllOrder : M unit := try_catch findAllOrder_try on_error.

(** The [try] block of [getOrder]. *)
Definition getOrder_try : M unit :=
  id <- req_params_id ;;
  if negb (ObjectId_isValid id) then
    res_validationError "invalid objectId."
  else
    let query : jsobj := <["_id" := id]> ∅ in
    let options : jsobj := ∅ in
    foundOrder <- dbService_findOne query options ;;
    if negb (truthy foundOrder) then res_recordNotFound
    else res_success foundOrder.

Definition getOrder : M unit := try_catch getOrder_try on_error.

(** The [try] block of [getOrderCount]. *)
Definition getOrderCount_try : M unit :=
  reqBody <- req_body ;;
  validateRequest <- validate_filter reqBody findFilterKeys None ;;
  if negb (isValid validateRequest) then
    res_validationError (message validateRequest)
  else
    bodyWhere <- lift (get_prop reqBody "where") ;;
    let where_ := object_or_empty bodyWhere in
    countedOrder <- dbService_count where_ ;;
    res_success (VObj {["count" := countedOrder]}).

Definition getOrderCount : M unit := try_catch getOrderCount_try on_error.

(** The [try] block of [updateOrder]. *)
Definition updateOrder_try : M unit :=
  reqBody <- req_body ;;
  userId <- req_user_id ;;
  let dataToUpdate := <["updatedBy" := userId]> (spread reqBody) in
  validateRequest <- validate_params (VObj dataToUpdate) updateSchemaKeys ;;
  if negb (isValid validateRequest) then
    res_validationError
      ("Invalid values in parameters, " +:+ message validateRequest)
  else
    id <- req_params_id ;;
    let query : jsobj := <["_id" := id]> ∅ in
    updatedOrder <- dbService_updateOne query dataToUpdate ;;
    if negb (truthy updatedOrder) then res_recordNotFound
    else res_success updatedOrder.

Definition updateOrder : M unit := try_catch updateOrder_try on_error.

(** The [try] block of [partialUpdateOrder].  The [if] on the missing id
    sends the bad-request response and has no [return]; from the building
    of [dataToUpdate] on, the block is that of [updateOrder]. *)
Definition partialUpdateOrder_try : M unit :=
  id <- req_params_id ;;
  (if negb (truthy id)
   then res_badRequest "Insufficient request parameters! id is required."
   else ret tt) ;;;
  delete_req_body "addedBy" ;;;
  reqBody <- req_body ;;
  userId <- req_user_id ;;
  let dataToUpdate := <["updatedBy" := userId]> (spread reqBody) in
  validateRequest <- validate_params (VObj dataToUpdate) updateSchemaKeys ;;
  if negb (isValid validateRequest) then
    res_validationError
      ("Invalid values in parameters, " +:+ message validateRequest)
  else
    id <- req_params_id ;;
    let query : jsobj := <["_id" := id]> ∅ in
    updatedOrder <- dbService_updateOne query dataToUpdate ;;
    if negb (truthy updatedOrder) then res_recordNotFound
    else res_success updatedOrder.

Definition partialUpdateOrder : M unit := try_catch partialUpdateOrder_try on_error.

(** The six exported operations. *)
Inductive operation : Type :=
| OpAddOrder | OpFindAllOrder | OpGetOrder | OpGetOrderCount
| OpUpdateOrder | OpPartialUpdateOrder.

Definition try_block (op : operation) : M unit :=
  match op with
  | OpAddOrder => addOrder_try
  | OpFindAllOrder => findAllOrder_try
  | OpGetOrder => getOrder_try
  | OpGetOrderCount => getOrderCount_try
  | OpUpdateOrder => updateOrder_try
  | OpPartialUpdateOrder => partialUpdateOrder_try
  end.

Definition controller (op : operation) : M unit :=
  match op with
  | OpAddOrder => addOrder
  | OpFindAllOrder => findAllOrder
  | OpGetOrder => getOrder
  | OpGetOrderCount => getOrderCount
  | OpUpdateOrder => updateOrder
  | OpPartialUpdateOrder => partialUpdateOrder
  end.

End Controller.

(** ** A concrete set of collaborators

    One instance of [Collaborators], for running the handlers on concrete
    requests: an order needs a numeric [total] when it is created, and any
    [total] given on an update must be a number; keys the schema does not
    name are let through. *)

Definition is_number (v : value) : bool :=
  match v with VNum _ => true | _ => false end.

Definition demo_validateParams (payload : value) (keys : schema_keys)
    : outcome verdict :=
  let total := default VUndefined (spread payload !! "total") in
  match keys, total with
  | schemaKeys, VUndefined => Ok (Verdict false "total is required")
  | _, VUndefined => Ok (Verdict true "")
  | _, _ => if is_number total then Ok (Verdict true "")
            else Ok (Verdict false "total must be a number")
  end.

Definition object_or_absent (v : value) : bool :=
  match v with VUndefined | VObj _ => true | _ => false end.

(** The filter envelope: [query], [where] and [options] are objects when
    they are there. *)
Definition demo_validateFilter (payload : value) (keys : schema_keys)
    (shape : option value) : outcome verdict :=
  let o := spread payload in
  if object_or_absent (get_field o "query")
     && object_or_absent (get_field o "where")
     && object_or_absent (get_field o "options")
  then Ok (Verdict true "")
  else Ok (Verdict false "query, where and options must be objects").

Definition is_hex (c : Ascii.ascii) : bool :=
  let n := Ascii.nat_of_ascii c in
  (48 <=? n) && (n <=? 57) || (65 <=? n) && (n <=? 70) || (97 <=? n) && (n <=? 102).

(** A string of 24 hexadecimal digits. *)
Definition demo_isValid (v : value) : bool :=
  match v with
  | VStr s => (String.length s =? 24) && forallb is_hex (String.list_ascii_of_string s)
  | _ => false
  end.

(** Equality of scalars; an object or an array equals nothing. *)
Definition scalar_eqb (a b : value) : bool :=
  match a, b with
  | VNull, VNull => true
  | VBool x, VBool y => Bool.eqb x y
  | VNum x, VNum y => (x =? y)%Z
  | VStr x, VStr y => String.eqb x y
  | _, _ => false
  end.

(** A document matches when it has every field of the query, with the
    query's value. *)
Definition demo_matches (query doc : jsobj) : bool :=
  forallb (fun kv => scalar_eqb (get_field doc (fst kv)) (snd kv)) (map_to_list query).

Definition demo_new_id (s : list jsobj) : value :=
  VStr ("order-" +:+ pretty (length s)).

Definition demo : Collaborators := {|
  validateParamsWithJoi := demo_validateParams;
  validateFilterWithJoi := demo_validateFilter;
  Order_schema_obj := VObj ∅;
  ObjectId_isValid := demo_isValid;
  matches := demo_matches;
  db_fault := fun _ _ => None;
  new_id := demo_new_id;
  default_limit := 10;
  page_info := fun _ _ => ∅
|}.

(** The same collaborators over a store that cannot be reached. *)
Definition demo_offline : Collaborators := {|
  validateParamsWithJoi := demo_validateParams;
  validateFilterWithJoi := demo_validateFilter;
  Order_schema_obj := VObj ∅;
  ObjectId_isValid := demo_isValid;
  matches := demo_matches;
  db_fault := fun _ _ => Some (JsError "PersistenceError" "connection lost");
  new_id := demo_new_id;
  default_limit := 10;
  page_info := fun _ _ => ∅
|}.

Definition alice : value := VObj {["id" := VStr "64b000000000000000000a11"]}.

Definition order1 : jsobj :=
  <["_id" := VStr "64b0000000000000000000c1"]>
  (<["total" := VNum 40]>
  (<["addedBy" := VStr "64b000000000000000000b0b"]> ∅)).

Definition order2 : jsobj :=
  <["_id" := VStr "64b0000000000000000000c2"]>
  (<["total" := VNum 15]>
  (<["addedBy" := VStr "64b000000000000000000a11"]> ∅)).

Definition shop : list jsobj := [order1; order2].

(** A request as it reaches a handler: nothing called or sent yet. *)
Definition incoming (b : value) (p : jsobj) (u : value) (s : list jsobj) : world :=
  World (Request b p u) s [].

(** *** Requests *)

(** An order whose sender names somebody else as its creator. *)
Definition forged_order : jsobj :=
  <["total" := VNum 3]> (<["addedBy" := VStr "64b00000000000000000bad1"]> ∅).

(** Sent to [create], and to [partial-update] with no id. *)
Definition create_forged : world := incoming (VObj forged_order) ∅ alice shop.

(** Sent to [create] with none of the fields an order needs. *)
Definition create_empty : world := incoming (VObj ∅) ∅ alice shop.

(** Sent to [update/:id] and [partial-update/:id] for the first order. *)
Definition update_forged : world :=
  incoming (VObj forged_order) {["id" := VStr "64b0000000000000000000c1"]} alice shop.

(** A filter no order of the shop matches. *)
Definition list_none : world :=
  incoming (VObj {["query" := VObj {["total" := VNum 99]}]}) ∅ alice shop.

Definition count_none : world :=
  incoming (VObj {["where" := VObj {["total" := VNum 99]}]}) ∅ alice shop.

Definition count_only_filter : jsobj :=
  <["isCountOnly" := VBool true]> {["query" := VObj {["total" := VNum 15]}]}.

Definition list_count_only : world :=
  incoming (VObj count_only_filter) ∅ alice shop.

Definition get_malformed : world :=
  incoming VUndefined {["id" := VStr "not-an-id"]} alice shop.

Definition get_absent : world :=
  incoming VUndefined {["id" := VStr "64b0000000000000000000c3"]} alice shop.

Definition get_order2 : world :=
  incoming VUndefined {["id" := VStr "64b0000000000000000000c2"]} alice shop.

(** ** The routes of the order controller ([orderRoutes.js]) *)

Inductive http_method : Type := GET | POST | PUT.

(** [PLATFORM.DEVICE], the one platform the order routes name. *)
Inductive platform : Type := DEVICE.

(** What a route runs, in order: the [auth] middleware for a platform, the
    [checkRolePermission] middleware, a function of the controller. *)
Inductive middleware : Type :=
| auth (p : platform)
| checkRolePermission
| action (op : operation).

Record route : Type :=
  Route { route_path : string; route_method : http_method;
          route_chain : list middleware }.

(** The six [router.route(path).method(...)] lines, in their order. *)
Definition orderRoutes : list route :=
  [ Route "/device/api/v1/order/create" POST
      [auth DEVICE; checkRolePermission; action OpAddOrder];
    Route "/device/api/v1/order/list" POST
      [auth DEVICE; checkRolePermission; action OpFindAllOrder];
    Route "/device/api/v1/order/count" POST
      [auth DEVICE; checkRolePermission; action OpGetOrderCount];
    Route "/device/api/v1/order/:id" GET
      [auth DEVICE; checkRolePermission; action OpGetOrder];
    Route "/device/api/v1/order/update/:id" PUT
      [auth DEVICE; checkRolePermission; action OpUpdateOrder];
    Route "/device/api/v1/order/partial-update/:id" PUT
      [auth DEVICE; checkRolePermission; action OpPartialUpdateOrder] ].

(** The routes that end in a given function of the controller. *)
Definition routes_to (op : operation) : list route :=
  List.filter
    (fun r => match last (route_chain r) with
              | Some (action op') =>
                  match op, op' with
                  | OpAddOrder, OpAddOrder | OpFindAllOrder, OpFindAllOrder
                  | OpGetOrder, OpGetOrder | OpGetOrderCount, OpGetOrderCount
                  | OpUpdateOrder, OpUpdateOrder
                  | OpPartialUpdateOrder, OpPartialUpdateOrder => true
                  | _, _ => false
                  end
              | _ => false
              end)
    orderRoutes.

(** ** The rate limiter of [routes/index.js] *)

(** [s.includes(sub)]: [sub] occurs in [s], at some position. *)
Fixpoint includes (s sub : string) : bool :=
  String.prefix sub s ||
  match s with
  | EmptyString => false
  | String _ s' => includes s' sub
  end.

(** The [skip] function given to [rateLimit]: requests it is true for are
    let through without being counted. *)
Definition skip (url : string) : bool :=
  if includes url "/swagger" || includes url "/favicon" then true else false.

(** The other options given to [rateLimit]. *)
Definition windowMs : Z := 30 * 60 * 1000.
Definition max_requests : Z := 20.
Definition limit_message : string :=
  "Rate limit exceeded, please try again after 30 minutes".

(** A string of hexadecimal digits. *)
Definition hex_digits (s : string) : bool :=
  forallb is_hex (String.list_ascii_of_string s).

(** *** More requests *)

(** An update for an identity no order of the shop has. *)
Definition update_absent : world :=
  incoming (VObj forged_order) {["id" := VStr "64b0000000000000000000c3"]} alice shop.

(** An update that reaches the handler with no [req.user]. *)
Definition update_anonymous : world :=
  incoming (VObj forged_order) {["id" := VStr "64b0000000000000000000c1"]}
    VUndefined shop.

(** A request with no body at all. *)
Definition no_body : world := incoming VUndefined ∅ alice shop.

(** A count whose [where] matches the second order, and whose [query]
    matches none. *)
Definition count_where_filter : jsobj :=
  <["where" := VObj {["total" := VNum 15]}]> {["query" := VObj {["total" := VNum 99]}]}.

Definition count_where : world := incoming (VObj count_where_filter) ∅ alice shop.

(** A list request whose filter matches the second order. *)
Definition list_some : world :=
  incoming (VObj {["query" := VObj {["total" := VNum 15]}]}) ∅ alice shop.

(** ** The handlers over a response that can refuse

    The handlers again, word for word, with the response helpers taken as
    one function [res] from the envelope to send to what sending it does.
    With [res] recording the envelope they are the handlers above; with
    [send_once] they run over an Express response. *)

Section Responding.
Context {C : Collaborators}.
Variable res : envelope -> M unit.

(** The [catch] clause. *)
Definition on_error_on (error : js_error) : M unit :=
  res (INTERNAL_SERVER_ERROR (err_message error)).

Definition addOrder_try_on : M unit :=
  reqBody <- req_body ;;
  let dataToCreate := spread (or_else reqBody (VObj ∅)) in
  validateRequest <- validate_params (VObj dataToCreate) schemaKeys ;;
  if negb (isValid validateRequest) then
    res (VALIDATION_ERROR
           ("Invalid values in parameters, " +:+ message validateRequest))
  else
    userId <- req_user_id ;;
    let dataToCreate := <["addedBy" := userId]> dataToCreate in
    let dataToCreate := Order_new dataToCreate in
    createdOrder <- dbService_create dataToCreate ;;
    res (SUCCESS createdOrder).

Definition findAllOrder_try_on : M unit :=
  reqBody <- req_body ;;
  validateRequest <- validate_filter reqBody findFilterKeys (Some Order_schema_obj) ;;
  if negb (isValid validateRequest) then
    res (VALIDATION_ERROR (message validateRequest))
  else
    bodyQuery <- lift (get_prop reqBody "query") ;;
    let query := object_or_empty bodyQuery in
    isCountOnly <- lift (get_prop reqBody "isCountOnly") ;;
    if truthy isCountOnly then
      totalRecords <- dbService_count query ;;
      res (SUCCESS (VObj {["totalRecords" := totalRecords]}))
    else
      options <- (if truthy reqBody then
                    bodyOptions <- lift (get_prop reqBody "options") ;;
                    ret (object_or_empty bodyOptions)
                  else ret ∅) ;;
      foundOrders <- dbService_paginate query options ;;
      if negb (truthy foundOrders) then res RECORD_NOT_FOUND
      else
        data <- lift (get_prop foundOrders "data") ;;
        if negb (truthy data) then res RECORD_NOT_FOUND
        else
          len <- lift (get_prop data "length") ;;
          if negb (truthy len) then res RECORD_NOT_FOUND
          else res (SUCCESS foundOrders).

Definition getOrder_try_on : M unit :=
  id <- req_params_id ;;
  if negb (ObjectId_isValid id) then
    res (VALIDATION_ERROR "invalid objectId.")
  else
    let query : jsobj := <["_id" := id]> ∅ in
    let options : jsobj := ∅ in
    foundOrder <- dbService_findOne query options ;;
    if negb (truthy foundOrder) then res RECORD_NOT_FOUND
    else res (SUCCESS foundOrder).

Definition getOrderCount_try_on : M unit :=
  reqBody <- req_body ;;
  validateRequest <- validate_filter reqBody findFilterKeys None ;;
  if negb (isValid validateRequest) then
    res (VALIDATION_ERROR (message validateRequest))
  else
    bodyWhere <- lift (get_prop reqBody "where") ;;
    let where_ := object_or_empty bodyWhere in
    countedOrder <- dbService_count where_ ;;
    res (SUCCESS (VObj {["count" := countedOrder]})).

Definition updateOrder_try_on : M unit :=
  reqBody <- req_body ;;
  userId <- req_user_id ;;
  let dataToUpdate := <["updatedBy" := userId]> (spread reqBody) in
  validateRequest <- validate_params (VObj dataToUpdate) updateSchemaKeys ;;
  if negb (isValid validateRequest) then
    res (VALIDATION_ERROR
           ("Invalid values in parameters, " +:+ message validateRequest))
  else
    id <- req_params_id ;;
    let query : jsobj := <["_id" := id]> ∅ in
    updatedOrder <- dbService_updateOne query dataToUpdate ;;
    if negb (truthy updatedOrder) then res RECORD_NOT_FOUND
    else res (SUCCESS updatedOrder).

Definition partialUpdateOrder_try_on : M unit :=
  id <- req_params_id ;;
  (if negb (truthy id)
   then res (BAD_REQUEST "Insufficient request parameters! id is required.")
   else ret tt) ;;;
  delete_req_body "addedBy" ;;;
  reqBody <- req_body ;;
  userId <- req_user_id ;;
  let dataToUpdate := <["updatedBy" := userId]> (spread reqBody) in
  validateRequest <- validate_params (VObj dataToUpdate) updateSchemaKeys ;;
  if negb (isValid validateRequest) then
    res (VALIDATION_ERROR
           ("Invalid values in parameters, " +:+ message validateRequest))
  else
    id <- req_params_id ;;
    let query : jsobj := <["_id" := id]> ∅ in
    updatedOrder <- dbService_updateOne query dataToUpdate ;;
    if negb (truthy updatedOrder) then res RECORD_NOT_FOUND
    else res (SUCCESS updatedOrder).

Definition try_block_on (op : operation) : M unit :=
  match op with
  | OpAddOrder => addOrder_try_on
  | OpFindAllOrder => findAllOrder_try_on
  | OpGetOrder => getOrder_try_on
  | OpGetOrderCount => getOrderCount_try_on
  | OpUpdateOrder => updateOrder_try_on
  | OpPartialUpdateOrder => partialUpdateOrder_try_on
  end.

(** [async (req, res) => { try { ... } catch (error) { ... } }]: what the
    handler returns, or the error its promise is rejected with. *)
Definition controller_on (op : operation) : M unit :=
  try_catch (try_block_on op) on_error_on.

End Responding.

(** The helper that records the envelope and goes on, as above. *)
Definition record_response (e : envelope) : M unit := emit (Respond e).

(** The error Node throws when a header is set on a response that has been
    sent. *)
Definition headers_sent : js_error :=
  JsError "Error" "Cannot set headers after they are sent to the client".

(** The helpers over an Express response: each sets the status and calls
    [res.json], which sends the envelope, once; called after a response has
    been sent, it throws and sends nothing. *)
Definition send_once (e : envelope) : M unit :=
  fun w => match responses w with
           | [] => (Ok tt, log (Respond e) w)
           | _ :: _ => (Threw headers_sent, w)
           end.

(** * Properties *)

(** ** Running the monad *)

Lemma responses_log (ev : event) (w : world) :
  responses (log ev w) =
  responses w ++ match ev with Respond e => [e] | _ => [] end.
Proof.
  unfold responses, log. cbn [trace]. rewrite omap_app. f_equal.
  now destruct ev.
Qed.

Lemma db_calls_log (ev : event) (w : world) :
  db_calls (log ev w) =
  db_calls w ++ match ev with CallDb c => [c] | _ => [] end.
Proof.
  unfold db_calls, log. cbn [trace]. rewrite omap_app. f_equal.
  now destruct ev.
Qed.

Lemma responses_set_db (s : list jsobj) (w : world) :
  responses (set_db s w) = responses w.
Proof. reflexivity. Qed.

Lemma responses_set_body (b : value) (w : world) :
  responses (set_body b w) = responses w.
Proof. reflexivity. Qed.

Lemma db_calls_set_db (s : list jsobj) (w : world) :
  db_calls (set_db s w) = db_calls w.
Proof. reflexivity. Qed.

Lemma get_field_insert_eq (o : jsobj) (k : string) (v : value) :
  get_field (<[k := v]> o) k = v.
Proof. unfold get_field. now rewrite lookup_insert_eq. Qed.

Lemma get_field_insert_ne (o : jsobj) (k k' : string) (v : value) :
  k <> k' -> get_field (<[k := v]> o) k' = get_field o k'.
Proof. intros H. unfold get_field. now rewrite lookup_insert_ne. Qed.

Section ControllerProperties.
Context {C : Collaborators}.

Lemma update_first_at (query patch : jsobj) (s : list jsobj) (i : nat) (d : jsobj) :
  s !! i = Some d ->
  matches query d = true ->
  Forall (fun d0 => matches query d0 = false) (take i s) ->
  update_first query patch s = Some (patch ∪ d, <[i := patch ∪ d]> s).
Proof.
  revert i. induction s as [|d0 s IH]; intros i Hi Hd Hbefore; [done|].
  destruct i as [|i]; cbn in *.
  - injection Hi as ->. now rewrite Hd.
  - apply Forall_cons in Hbefore as [Hd0 Hbefore]. rewrite Hd0.
    now rewrite (IH i Hi Hd Hbefore).
Qed.


(** ** Tactics for running a handler *)

(** Reads of the world through the events logged on it. *)
Ltac simp_run :=
  cbv beta iota zeta;
  cbn [req db log set_db set_body body params user negb fst snd
       get_prop delete_prop spread truthy is_object].

(** Unfolds one handler down to the calls on its collaborators. *)
Ltac run_handler :=
  cbv beta iota zeta delta
    [addOrder findAllOrder getOrder getOrderCount updateOrder partialUpdateOrder
     addOrder_try findAllOrder_try getOrder_try getOrderCount_try
     updateOrder_try partialUpdateOrder_try on_error
     try_catch bind ret lift emit req_body req_params_id req_user_id
     res_success res_validationError res_badRequest res_recordNotFound
     res_internalServerError validate_params validate_filter Order_new
     dbService_create dbService_findOne dbService_count dbService_paginate
     dbService_updateOne db_run delete_req_body];
  simp_run.

(** The same on a world given by its parts. *)
Ltac run_world :=
  cbv beta iota zeta delta
    [log set_db set_body req db body params user delete_prop spread].

(** Splits a run on the first call whose result is not known. *)
Ltac case_run :=
  match goal with
  | |- context [match ?x with Ok _ => _ | Threw _ => _ end] => destruct x eqn:?
  | |- context [match db_fault ?s ?c with _ => _ end] =>
      destruct (db_fault s c) eqn:?
  | |- context [match update_first ?q ?p ?s with _ => _ end] =>
      destruct (update_first q p s) as [[? ?]|] eqn:?
  | |- context [if ?b then _ else _] => destruct b eqn:?
  end; simp_run.

Ltac case_db_fault :=
  match goal with
  | |- context [db_fault ?s ?c] => destruct (db_fault s c) eqn:?
  end.

(** A run that sent something else than what was observed. *)
Ltac other_response H :=
  exfalso; revert H;
  rewrite ?responses_log, ?responses_set_db, ?responses_set_body, ?app_nil_r;
  rewrite <- ?(assoc_L (++));
  intros H; apply app_inv_head in H; discriminate.

(** ** The handlers *)

Lemma page_data_nil (options : jsobj) : page_data options [] = [].
Proof.
  unfold page_data. destruct (pagination_enabled options); [|reflexivity].
  now rewrite drop_nil, take_nil.
Qed.

(** Whatever the [try] block does, the [catch] clause of the handlers ends
    the run with a response. *)
Lemma try_catch_on_error (m : M unit) (w : world) :
  exists w',
    try_catch m on_error w = (Ok tt, w') /\
    forall (e : js_error) (w1 : world),
      m w = (Threw e, w1) ->
      w' = log (Respond (INTERNAL_SERVER_ERROR (err_message e))) w1.
Proof.
  unfold try_catch.
  destruct (m w) as [[[]|e] w1]; eexists; (split; [reflexivity|]).
  - intros e w2 [=].
  - intros e' w2 [= <- <-]. reflexivity.
Qed.

(** C1: a list request that passes filter validation, does not set
    [isCountOnly] and whose filter matches no document is answered with the
    record-not-found envelope, and with nothing else: not with a success
    envelope holding an empty [data] array. *)
Theorem findAllOrder_empty_not_found (w : world) (b : jsobj) (v : verdict) :
  body (req w) = VObj b ->
  validateFilterWithJoi (VObj b) findFilterKeys (Some Order_schema_obj) = Ok v ->
  isValid v = true ->
  truthy (get_field b "isCountOnly") = false ->
  db_fault (db w)
    (DbPaginate (object_or_empty (get_field b "query"))
                (object_or_empty (get_field b "options"))) = None ->
  hits (object_or_empty (get_field b "query")) (db w) = [] ->
  exists w',
    findAllOrder w = (Ok tt, w') /\
    responses w' = responses w ++ [RECORD_NOT_FOUND].
Proof.
  intros Hbody Hv Hvalid Hcount Hup Hnone. eexists. split.
  - run_handler. rewrite Hbody. simp_run. rewrite Hv. simp_run.
    rewrite Hvalid. simp_run. rewrite Hcount. simp_run.
    rewrite Hup. simp_run. rewrite Hnone, page_data_nil.
    rewrite !get_field_insert_eq. simp_run. reflexivity.
  - rewrite responses_log, responses_set_db, !responses_log, !app_nil_r.
    reflexivity.
Qed.

(** C2: [updateOrder] passes an [addedBy] of the request body on to the
    store: for a payload the validator accepts, the document with the
    identity asked for ends with the [addedBy] the client supplied. *)
Theorem updateOrder_overwrites_addedBy
    (w : world) (b : jsobj) (forged userId : value) (v : verdict)
    (i : nat) (d : jsobj) :
  body (req w) = VObj b ->
  b !! "addedBy" = Some forged ->
  get_prop (user (req w)) "id" = Ok userId ->
  validateParamsWithJoi (VObj (<["updatedBy" := userId]> b)) updateSchemaKeys = Ok v ->
  isValid v = true ->
  db_fault (db w)
    (DbUpdateOne (<["_id" := get_field (params (req w)) "id"]> ∅)
                 (<["updatedBy" := userId]> b)) = None ->
  db w !! i = Some d ->
  matches (<["_id" := get_field (params (req w)) "id"]> ∅) d = true ->
  Forall (fun d0 => matches (<["_id" := get_field (params (req w)) "id"]> ∅) d0 = false)
         (take i (db w)) ->
  exists (w' : world) (d' : jsobj),
    updateOrder w = (Ok tt, w') /\
    db w' = <[i := d']> (db w) /\
    get_field d' "addedBy" = forged /\
    responses w' = responses w ++ [SUCCESS (VObj d')].
Proof.
  intros Hbody Hforged Huser Hv Hvalid Hup Hi Hd Hbefore.
  eexists _, (<["updatedBy" := userId]> b ∪ d). split; [|split; [|split]].
  - run_handler. rewrite Hbody. simp_run. rewrite Huser. simp_run.
    rewrite Hv. simp_run. rewrite Hvalid. simp_run. rewrite Hup. simp_run.
    rewrite (update_first_at _ _ _ i d Hi Hd Hbefore). simp_run. reflexivity.
  - reflexivity.
  - unfold get_field.
    rewrite (lookup_union_Some_l _ _ _ forged); [done|].
    now rewrite lookup_insert_ne.
  - now rewrite responses_log, responses_set_db, !responses_log, !app_nil_r.
Qed.


(** C3: with the id parameter missing, [partialUpdateOrder] sends the
    bad-request envelope and then goes on: the update payload is validated,
    [dbService.updateOne] is called with the missing id, and a second
    envelope is sent. *)
Theorem partialUpdateOrder_missing_id_goes_on
    (w : world) (b : jsobj) (userId : value) (v : verdict) :
  truthy (get_field (params (req w)) "id") = false ->
  body (req w) = VObj b ->
  get_prop (user (req w)) "id" = Ok userId ->
  validateParamsWithJoi
    (VObj (<["updatedBy" := userId]> (delete "addedBy" b))) updateSchemaKeys = Ok v ->
  isValid v = true ->
  db_fault (db w)
    (DbUpdateOne (<["_id" := get_field (params (req w)) "id"]> ∅)
                 (<["updatedBy" := userId]> (delete "addedBy" b))) = None ->
  exists (w' : world) (second : envelope),
    partialUpdateOrder w = (Ok tt, w') /\
    trace w' =
      trace w ++
      [Respond (BAD_REQUEST "Insufficient request parameters! id is required.");
       CallValidateParams
         (VObj (<["updatedBy" := userId]> (delete "addedBy" b))) updateSchemaKeys;
       CallDb (DbUpdateOne (<["_id" := get_field (params (req w)) "id"]> ∅)
                           (<["updatedBy" := userId]> (delete "addedBy" b)));
       Respond second].
Proof.
  intros Hid Hbody Huser Hv Hvalid Hup.
  assert (Hrun : exists second, partialUpdateOrder w =
    (Ok tt,
     log (Respond second)
       (set_db
          (match update_first (<["_id" := get_field (params (req w)) "id"]> ∅)
                   (<["updatedBy" := userId]> (delete "addedBy" b)) (db w) with
           | Some (_, s') => s'
           | None => db w
           end)
          (log (CallDb (DbUpdateOne (<["_id" := get_field (params (req w)) "id"]> ∅)
                          (<["updatedBy" := userId]> (delete "addedBy" b))))
             (log (CallValidateParams
                     (VObj (<["updatedBy" := userId]> (delete "addedBy" b)))
                     updateSchemaKeys)
                (set_body (VObj (delete "addedBy" b))
                   (log (Respond (BAD_REQUEST
                           "Insufficient request parameters! id is required."))
                      w))))))).
  { run_handler. rewrite Hid. simp_run. rewrite Hbody. simp_run.
    rewrite Huser. simp_run. rewrite Hv. simp_run. rewrite Hvalid. simp_run.
    rewrite Hup. simp_run.
    destruct (update_first _ _ (db w)) as [[d' s']|]; simp_run;
      eexists; reflexivity. }
  destruct Hrun as [second Hrun]. eexists _, second. split; [exact Hrun|].
  cbn [trace log set_db set_body]. now rewrite <- !(assoc_L (++)).
Qed.

(** C4: when [addOrder] answers with success, the document it has appended
    to the collection and returned has [addedBy] equal to [req.user.id],
    whatever [addedBy] the request body carried. *)
Theorem addOrder_stamps_addedBy (w w' : world) (data : value) :
  addOrder w = (Ok tt, w') ->
  responses w' = responses w ++ [SUCCESS data] ->
  exists stored : jsobj,
    data = VObj stored /\
    db w' = db w ++ [stored] /\
    get_prop (user (req w)) "id" = Ok (get_field stored "addedBy").
Proof.
  intros Hrun Hsent. revert Hrun. run_handler.
  destruct (validateParamsWithJoi _ schemaKeys) as [v|e]; simp_run;
    [destruct (isValid v); simp_run|];
    [destruct (get_prop (user (req w)) "id") as [userId|e] eqn:Hid; simp_run| |];
    [case_db_fault; simp_run| | |];
    intros [= <-]; try (other_response Hsent).
  revert Hsent.
  rewrite responses_log, responses_set_db, !responses_log, !app_nil_r.
  intros Hsent. apply app_inv_head in Hsent. injection Hsent as <-.
  eexists. split; [reflexivity|]. split; [reflexivity|].
  now rewrite get_field_insert_ne, get_field_insert_eq.
Qed.

(** C5: [getOrder] answers an identity that is not a well-formed ObjectId
    with the validation-error envelope, without calling [dbService]; a
    well-formed identity that matches no document with record-not-found;
    and a well-formed identity that matches with a success envelope holding
    exactly the matching document. *)
Theorem getOrder_by_id (w : world) :
  let id := get_field (params (req w)) "id" in
  let query : jsobj := <["_id" := id]> ∅ in
  (ObjectId_isValid id = false ->
   exists w',
     getOrder w = (Ok tt, w') /\
     responses w' = responses w ++ [VALIDATION_ERROR "invalid objectId."] /\
     db_calls w' = db_calls w) /\
  (ObjectId_isValid id = true ->
   db_fault (db w) (DbFindOne query ∅) = None ->
   hits query (db w) = [] ->
   exists w',
     getOrder w = (Ok tt, w') /\
     responses w' = responses w ++ [RECORD_NOT_FOUND]) /\
  (forall d : jsobj,
   ObjectId_isValid id = true ->
   db_fault (db w) (DbFindOne query ∅) = None ->
   head (hits query (db w)) = Some d ->
   exists w',
     getOrder w = (Ok tt, w') /\
     responses w' = responses w ++ [SUCCESS (VObj d)]).
Proof.
  intros id query. subst id query. repeat split.
  - intros Hbad. eexists. split.
    + run_handler. rewrite Hbad. reflexivity.
    + rewrite responses_log, db_calls_log, app_nil_r. auto.
  - intros Hgood Hup Hnone. eexists. split.
    + run_handler. rewrite Hgood. simp_run. rewrite Hup. simp_run.
      rewrite Hnone. reflexivity.
    + now rewrite responses_log, responses_set_db, responses_log, app_nil_r.
  - intros d Hgood Hup Hfound. eexists. split.
    + run_handler. rewrite Hgood. simp_run. rewrite Hup. simp_run.
      rewrite Hfound. reflexivity.
    + now rewrite responses_log, responses_set_db, responses_log, app_nil_r.
Qed.

(** C6: a count request that passes filter validation and whose filter
    matches no document is answered with success and [count: 0]. *)
Theorem getOrderCount_zero_is_success (w : world) (b : jsobj) (v : verdict) :
  body (req w) = VObj b ->
  validateFilterWithJoi (VObj b) findFilterKeys None = Ok v ->
  isValid v = true ->
  db_fault (db w) (DbCount (object_or_empty (get_field b "where"))) = None ->
  hits (object_or_empty (get_field b "where")) (db w) = [] ->
  exists w',
    getOrderCount w = (Ok tt, w') /\
    responses w' = responses w ++ [SUCCESS (VObj {["count" := VNum 0]})].
Proof.
  intros Hbody Hv Hvalid Hup Hnone. eexists. split.
  - run_handler. rewrite Hbody. simp_run. rewrite Hv. simp_run.
    rewrite Hvalid. simp_run. rewrite Hup. simp_run. rewrite Hnone.
    reflexivity.
  - rewrite responses_log, responses_set_db, !responses_log, !app_nil_r.
    reflexivity.
Qed.

(** C7: a list request that passes filter validation and sets
    [isCountOnly] is answered with a success envelope whose data is the
    total record count alone; the one call on [dbService] is the count, so
    no pagination query is made, and the collection is as it was. *)
Theorem findAllOrder_count_only (w : world) (b : jsobj) (v : verdict) :
  body (req w) = VObj b ->
  validateFilterWithJoi (VObj b) findFilterKeys (Some Order_schema_obj) = Ok v ->
  isValid v = true ->
  truthy (get_field b "isCountOnly") = true ->
  db_fault (db w) (DbCount (object_or_empty (get_field b "query"))) = None ->
  exists w',
    findAllOrder w = (Ok tt, w') /\
    responses w' =
      responses w ++
      [SUCCESS (VObj {["totalRecords" :=
         VNum (Z.of_nat (length (hits (object_or_empty (get_field b "query")) (db w))))]})] /\
    db_calls w' = db_calls w ++ [DbCount (object_or_empty (get_field b "query"))] /\
    db w' = db w.
Proof.
  intros Hbody Hv Hvalid Hcount Hup. eexists. split.
  - run_handler. rewrite Hbody. simp_run. rewrite Hv. simp_run.
    rewrite Hvalid. simp_run. rewrite Hcount. simp_run.
    rewrite Hup. simp_run. reflexivity.
  - rewrite responses_log, responses_set_db, !responses_log.
    rewrite db_calls_log, db_calls_set_db, !db_calls_log.
    rewrite !app_nil_r. auto.
Qed.

(** C8: a create request whose body fails schema validation is answered
    with the validation-error envelope, carrying the validator's message,
    and nothing is persisted: the collection is as it was and [dbService]
    has not been called, the validation being over before any write. *)
Theorem addOrder_invalid_not_persisted (w : world) (v : verdict) :
  validateParamsWithJoi (VObj (spread (or_else (body (req w)) (VObj ∅)))) schemaKeys
    = Ok v ->
  isValid v = false ->
  exists w',
    addOrder w = (Ok tt, w') /\
    responses w' =
      responses w ++ [VALIDATION_ERROR ("Invalid values in parameters, " +:+ message v)] /\
    db w' = db w /\
    db_calls w' = db_calls w.
Proof.
  intros Hv Hinvalid. eexists. split.
  - run_handler. rewrite Hv. simp_run. rewrite Hinvalid. reflexivity.
  - rewrite !responses_log, !db_calls_log, !app_nil_r. auto.
Qed.

(** C10: [partialUpdateOrder] changes the request it is given: a body that
    had an [addedBy] key is, after the call, that body without the key. *)
Theorem partialUpdateOrder_deletes_addedBy_in_place
    (w : world) (b : jsobj) (v : value) :
  body (req w) = VObj b ->
  b !! "addedBy" = Some v ->
  exists w',
    partialUpdateOrder w = (Ok tt, w') /\
    body (req w') = VObj (delete "addedBy" b) /\
    get_prop (body (req w')) "addedBy" = Ok VUndefined /\
    body (req w') <> body (req w).
Proof.
  intros Hbody Hhas.
  assert (Hreq : body (req (snd (partialUpdateOrder w))) = VObj (delete "addedBy" b)).
  { destruct w as [[reqBody reqParams reqUser] s t].
    cbn [body req] in Hbody. subst reqBody. run_handler. run_world.
    repeat case_run; reflexivity. }
  destruct (try_catch_on_error partialUpdateOrder_try w) as (w' & Hrun & _).
  fold partialUpdateOrder in Hrun. rewrite Hrun in Hreq. cbn [snd] in Hreq.
  exists w'. split; [exact Hrun|]. split; [exact Hreq|]. split.
  - rewrite Hreq. cbn [get_prop]. unfold get_field.
    now rewrite lookup_delete_eq.
  - rewrite Hreq, Hbody. intros [= Heq].
    rewrite <- Heq, lookup_delete_eq in Hhas. discriminate.
Qed.

(** ** Further properties of the handlers *)

Lemma update_first_none (query patch : jsobj) (s : list jsobj) :
  hits query s = [] -> update_first query patch s = None.
Proof.
  unfold hits. induction s as [|d s IH]; cbn; [done|].
  destruct (matches query d); [done|]. intros H. now rewrite (IH H).
Qed.

Lemma update_first_inv (query patch : jsobj) (s s' : list jsobj) (d' : jsobj) :
  update_first query patch s = Some (d', s') ->
  exists (i : nat) (d : jsobj),
    s !! i = Some d /\ matches query d = true /\
    d' = patch ∪ d /\ s' = <[i := d']> s.
Proof.
  revert s' d'. induction s as [|d0 s IH]; intros s' d'; cbn; [done|].
  destruct (matches query d0) eqn:Hd0.
  - intros [= <- <-]. now exists 0, d0.
  - destruct (update_first query patch s) as [[d1 s1]|]; [|done].
    intros [= <- <-]. destruct (IH s1 d1 eq_refl) as (i & d & Hi & Hd & -> & ->).
    now exists (S i), d.
Qed.

(** Reads the responses and the store calls off a world given by its
    parts. *)
Ltac read_trace :=
  unfold responses, db_calls; cbn [trace];
  rewrite ?omap_app; cbn [omap list_omap app];
  rewrite ?app_nil_r, <- ?(assoc_L (++)).

(** The three handlers that only query leave the collection and the
    request as they were, on every request. *)
Theorem queries_change_nothing (w : world) :
  (db (snd (findAllOrder w)) = db w /\ req (snd (findAllOrder w)) = req w) /\
  (db (snd (getOrder w)) = db w /\ req (snd (getOrder w)) = req w) /\
  (db (snd (getOrderCount w)) = db w /\ req (snd (getOrderCount w)) = req w).
Proof.
  destruct w as [[reqBody reqParams reqUser] s t].
  repeat split; run_handler; run_world; repeat case_run; reflexivity.
Qed.

(** Every handler answers a request with exactly one envelope; for
    [partialUpdateOrder] this needs the id parameter to be there. *)
Theorem one_response_per_request (op : operation) (w : world) :
  (op = OpPartialUpdateOrder -> truthy (get_field (params (req w)) "id") = true) ->
  exists e : envelope, responses (snd (controller op w)) = responses w ++ [e].
Proof.
  destruct w as [[reqBody reqParams reqUser] s t]. cbn [req params].
  intros Hid. destruct op; cbn [controller]; try rewrite (Hid eq_refl);
    run_handler; run_world; try rewrite (Hid eq_refl); simp_run;
    repeat case_run; read_trace; eexists; reflexivity.
Qed.

(** A validation-error answer means the store was left alone: whichever
    handler sent it, no [dbService] call was made and the collection is as
    it was. *)
Theorem validation_error_means_no_store_call
    (op : operation) (w : world) (sent : list envelope) (msg : string) :
  responses (snd (controller op w)) = responses w ++ sent ->
  VALIDATION_ERROR msg ∈ sent ->
  db_calls (snd (controller op w)) = db_calls w /\
  db (snd (controller op w)) = db w.
Proof.
  destruct w as [[reqBody reqParams reqUser] s t].
  destruct op; cbn [controller]; run_handler; run_world;
    repeat case_run; read_trace; cbn [db];
    intros Hsent Hin; try (split; reflexivity);
    apply app_inv_head in Hsent; subst sent; exfalso;
    repeat (apply elem_of_cons in Hin as [Hin|Hin]; [discriminate Hin|]);
    now apply elem_of_nil in Hin.
Qed.

(** With the id parameter there, a partial update is the full update of the
    same request with [addedBy] taken out of its body. *)
Theorem partialUpdateOrder_is_updateOrder_without_addedBy (w : world) (b : jsobj) :
  truthy (get_field (params (req w)) "id") = true ->
  body (req w) = VObj b ->
  partialUpdateOrder w = updateOrder (set_body (VObj (delete "addedBy" b)) w).
Proof.
  destruct w as [[reqBody reqParams reqUser] s t]. cbn [req params body].
  intros Hid ->. run_handler. run_world. rewrite Hid. reflexivity.
Qed.

(** An update for an identity no document has is answered with
    record-not-found, and nothing is written. *)
Theorem updateOrder_unknown_id_writes_nothing
    (w : world) (userId : value) (v : verdict) :
  get_prop (user (req w)) "id" = Ok userId ->
  validateParamsWithJoi
    (VObj (<["updatedBy" := userId]> (spread (body (req w))))) updateSchemaKeys = Ok v ->
  isValid v = true ->
  db_fault (db w)
    (DbUpdateOne (<["_id" := get_field (params (req w)) "id"]> ∅)
                 (<["updatedBy" := userId]> (spread (body (req w))))) = None ->
  hits (<["_id" := get_field (params (req w)) "id"]> ∅) (db w) = [] ->
  responses (snd (updateOrder w)) = responses w ++ [RECORD_NOT_FOUND] /\
  db (snd (updateOrder w)) = db w.
Proof.
  destruct w as [[reqBody reqParams reqUser] s t]. cbn [req params body user db].
  intros Huser Hv Hvalid Hup Hnone. run_handler.
  cbv beta iota zeta delta [log set_db set_body req db body params user].
  rewrite Huser. simp_run. rewrite Hv. simp_run. rewrite Hvalid. simp_run.
  rewrite Hup. simp_run. rewrite (update_first_none _ _ _ Hnone). simp_run.
  read_trace. split; reflexivity.
Qed.

(** When an update is answered with success, the document returned is in
    the collection in place of one that matched the identity asked for,
    its [updatedBy] is [req.user.id] whatever the body said, and no other
    document has changed. *)
Theorem updateOrder_success_stamps_updatedBy (w : world) (data : value) :
  responses (snd (updateOrder w)) = responses w ++ [SUCCESS data] ->
  exists (i : nat) (old new : jsobj),
    data = VObj new /\
    db w !! i = Some old /\
    matches (<["_id" := get_field (params (req w)) "id"]> ∅) old = true /\
    db (snd (updateOrder w)) = <[i := new]> (db w) /\
    get_prop (user (req w)) "id" = Ok (get_field new "updatedBy").
Proof.
  destruct w as [[reqBody reqParams reqUser] s t]. cbn [req params body user db].
  run_handler. run_world.
  repeat case_run; read_trace; intros Hsent; apply app_inv_head in Hsent;
    try discriminate Hsent.
  injection Hsent as <-.
  match goal with
  | H : update_first _ _ _ = Some _ |- _ =>
      apply update_first_inv in H as (i & old & Hi & Hold & -> & ->)
  end.
  exists i, old. eexists. repeat split; try eassumption. cbn [db].
  f_equal. unfold get_field.
  erewrite lookup_union_Some_l; [reflexivity|]. apply lookup_insert_eq.
Qed.

(** A count request is answered with the number of documents matching
    [req.body.where], found with one [count] call; what the body holds
    under [query] plays no part, and nothing is written. *)
Theorem getOrderCount_counts_where (w : world) (b : jsobj) (v : verdict) :
  body (req w) = VObj b ->
  validateFilterWithJoi (VObj b) findFilterKeys None = Ok v ->
  isValid v = true ->
  db_fault (db w) (DbCount (object_or_empty (get_field b "where"))) = None ->
  responses (snd (getOrderCount w)) =
    responses w ++
    [SUCCESS (VObj {["count" :=
       VNum (Z.of_nat (length (hits (object_or_empty (get_field b "where")) (db w))))]})] /\
  db_calls (snd (getOrderCount w)) =
    db_calls w ++ [DbCount (object_or_empty (get_field b "where"))].
Proof.
  destruct w as [[reqBody reqParams reqUser] s t]. cbn [req params body user db].
  intros -> Hv Hvalid Hup. run_handler. run_world.
  rewrite Hv. simp_run. rewrite Hvalid. simp_run. rewrite Hup. simp_run.
  read_trace. split; reflexivity.
Qed.

(** A list request is never answered with a success envelope around an
    empty page: a success carries either the count alone or a [data] array
    with a document in it. *)
Theorem findAllOrder_success_is_never_empty (w : world) (data : value) :
  responses (snd (findAllOrder w)) = responses w ++ [SUCCESS data] ->
  (exists n : Z, data = VObj {["totalRecords" := VNum n]}) \/
  (exists (first : value) (others : list value),
     get_prop data "data" = Ok (VArr (first :: others))).
Proof.
  destruct w as [[reqBody reqParams reqUser] s t].
  run_handler. run_world. rewrite ?get_field_insert_eq.
  repeat (case_run; rewrite ?get_field_insert_eq; simp_run);
    read_trace; intros Hsent; apply app_inv_head in Hsent;
    try discriminate Hsent; injection Hsent as <-.
  all: try (left; eexists; reflexivity).
  all: right; cbn [get_prop]; rewrite get_field_insert_eq.
  all: match goal with
       | |- context [VArr (VObj <$> ?l)] => destruct l as [|doc docs]
       end; [discriminate|].
  all: eexists _, _; reflexivity.
Qed.

(** Without [req.user] no write reaches the store: when reading
    [req.user.id] fails, none of the three writing handlers calls
    [dbService], and the collection is as it was. *)
Theorem no_user_no_write (w : world) (e : js_error) :
  get_prop (user (req w)) "id" = Threw e ->
  (db_calls (snd (addOrder w)) = db_calls w /\ db (snd (addOrder w)) = db w) /\
  (db_calls (snd (updateOrder w)) = db_calls w /\ db (snd (updateOrder w)) = db w) /\
  (db_calls (snd (partialUpdateOrder w)) = db_calls w /\
   db (snd (partialUpdateOrder w)) = db w).
Proof.
  destruct w as [[reqBody reqParams reqUser] s t]. cbn [req user].
  intros Huser.
  repeat split; run_handler; run_world; rewrite ?Huser; simp_run;
    repeat (case_run; rewrite ?Huser; simp_run); read_trace; reflexivity.
Qed.

(** A create request with no body, or with any falsy body, is validated as
    the empty object: validating [{}] against the creation schema is the
    first thing [addOrder] does. *)
Theorem addOrder_no_body_validates_empty (w : world) :
  truthy (body (req w)) = false ->
  exists rest : list event,
    trace (snd (addOrder w)) =
      trace w ++ CallValidateParams (VObj ∅) schemaKeys :: rest.
Proof.
  destruct w as [[reqBody reqParams reqUser] s t]. cbn [req body].
  intros Hbody. run_handler.
  cbv beta iota zeta delta [log set_db set_body req db body params user or_else].
  rewrite Hbody. cbn [spread].
  repeat case_run; cbn [trace]; rewrite <- ?(assoc_L (++)); eexists; reflexivity.
Qed.

(** A list or count request whose body is [undefined] or [null], let
    through by the validator, is answered with the internal-server-error
    envelope of the failed property read, and the store is not called. *)
Theorem filter_handlers_need_a_body (w : world) (v v' : verdict) (e e' : js_error) :
  get_prop (body (req w)) "query" = Threw e ->
  get_prop (body (req w)) "where" = Threw e' ->
  validateFilterWithJoi (body (req w)) findFilterKeys (Some Order_schema_obj) = Ok v ->
  validateFilterWithJoi (body (req w)) findFilterKeys None = Ok v' ->
  isValid v = true ->
  isValid v' = true ->
  (responses (snd (findAllOrder w)) =
     responses w ++ [INTERNAL_SERVER_ERROR (err_message e)] /\
   db_calls (snd (findAllOrder w)) = db_calls w) /\
  (responses (snd (getOrderCount w)) =
     responses w ++ [INTERNAL_SERVER_ERROR (err_message e')] /\
   db_calls (snd (getOrderCount w)) = db_calls w).
Proof.
  destruct w as [[reqBody reqParams reqUser] s t]. cbn [req body].
  intros Hq Hw Hv Hv' Hvalid Hvalid'.
  repeat split; run_handler;
    cbv beta iota zeta delta [log set_db set_body req db body params user];
    rewrite ?Hv, ?Hv'; simp_run; rewrite ?Hvalid, ?Hvalid'; simp_run;
    rewrite ?Hq, ?Hw; simp_run; read_trace; reflexivity.
Qed.

(** ** The handlers over an Express response *)

(** With helpers that record the envelope, the handlers over [res] are the
    handlers of the controller. *)
Lemma controller_on_record_response (op : operation) :
  controller_on record_response op = controller op.
Proof. destruct op; reflexivity. Qed.

(** Runs a handler over [send_once] on a request that has just come in. *)
Ltac run_once :=
  cbv beta iota zeta delta
    [controller_on try_block_on on_error_on
     addOrder_try_on findAllOrder_try_on getOrder_try_on getOrderCount_try_on
     updateOrder_try_on partialUpdateOrder_try_on send_once
     controller try_block
     addOrder findAllOrder getOrder getOrderCount updateOrder partialUpdateOrder
     addOrder_try findAllOrder_try getOrder_try getOrderCount_try
     updateOrder_try partialUpdateOrder_try on_error
     res_success res_validationError res_badRequest res_recordNotFound
     res_internalServerError
     try_catch bind ret lift emit req_body req_params_id req_user_id
     validate_params validate_filter Order_new
     dbService_create dbService_findOne dbService_count dbService_paginate
     dbService_updateOne db_run delete_req_body
     incoming log set_db set_body req db body params user trace
     responses omap list_omap app delete_prop];
  simp_run.

Ltac case_once :=
  case_run; rewrite ?get_field_insert_eq; simp_run;
  cbv beta iota zeta delta [responses omap list_omap app trace].

(** C9: over an Express response, a partial update that comes in with no
    id ends with an error that nothing catches, on every path: the
    bad-request envelope has been sent, so whichever helper the [try] block
    calls next throws, and so does [res.internalServerError] in the [catch]
    clause. *)
Theorem partialUpdateOrder_missing_id_error_escapes
    (reqBody : value) (reqParams : jsobj) (reqUser : value) (s : list jsobj) :
  truthy (get_field reqParams "id") = false ->
  exists w' : world,
    controller_on send_once OpPartialUpdateOrder
      (incoming reqBody reqParams reqUser s) = (Threw headers_sent, w') /\
    responses w' = [BAD_REQUEST "Insufficient request parameters! id is required."].
Proof.
  intros Hid. run_once. rewrite Hid. simp_run.
  cbv beta iota zeta delta [responses omap list_omap app trace].
  repeat case_once; eexists; split; reflexivity.
Qed.

(** Apart from that, no error escapes a handler over an Express response:
    on a request that has just come in (for [partialUpdateOrder], one with
    its id) the handler returns normally, having sent exactly one envelope,
    and when its [try] block threw, that envelope is the
    internal-server-error one with the message of the error.  The run is
    the one the recording helpers give. *)
Theorem sending_once_no_error_escapes
    (op : operation) (reqBody : value) (reqParams : jsobj) (reqUser : value)
    (s : list jsobj) :
  (op = OpPartialUpdateOrder -> truthy (get_field reqParams "id") = true) ->
  exists (w' : world) (e : envelope),
    controller_on send_once op (incoming reqBody reqParams reqUser s) = (Ok tt, w') /\
    controller op (incoming reqBody reqParams reqUser s) = (Ok tt, w') /\
    responses w' = [e] /\
    forall (error : js_error) (w1 : world),
      try_block_on send_once op (incoming reqBody reqParams reqUser s)
        = (Threw error, w1) ->
      e = INTERNAL_SERVER_ERROR (err_message error).
Proof.
  intros Hid.
  destruct op; try specialize (Hid eq_refl); run_once; rewrite ?Hid; simp_run;
    cbv beta iota zeta delta [responses omap list_omap app trace];
    repeat case_once;
    eexists _, _; (split; [reflexivity|]); (split; [reflexivity|]);
    (split; [reflexivity|]); intros error w1 Hthrew;
    try discriminate Hthrew; now injection Hthrew as <- _.
Qed.

End ControllerProperties.

(** ** The properties on concrete requests *)

(** A filter on a total no order of the shop has. *)
Lemma findAllOrder_empty_not_found_witness :
  exists w',
    @findAllOrder demo list_none = (Ok tt, w') /\
    responses w' = responses list_none ++ [RECORD_NOT_FOUND].
Proof.
  apply (@findAllOrder_empty_not_found demo list_none
           {["query" := VObj {["total" := VNum 99]}]} (Verdict true ""));
    reflexivity.
Defined.

(** The first order of the shop, updated with a forged creator. *)
Lemma updateOrder_overwrites_addedBy_witness :
  exists (w' : world) (d' : jsobj),
    @updateOrder demo update_forged = (Ok tt, w') /\
    db w' = <[0 := d']> (db update_forged) /\
    get_field d' "addedBy" = VStr "64b00000000000000000bad1" /\
    responses w' = responses update_forged ++ [SUCCESS (VObj d')].
Proof.
  apply (@updateOrder_overwrites_addedBy demo update_forged forged_order
           (VStr "64b00000000000000000bad1") (VStr "64b000000000000000000a11")
           (Verdict true "") 0 order1);
    try reflexivity.
  constructor.
Defined.

(** A partial update sent with no id. *)
Lemma partialUpdateOrder_missing_id_goes_on_witness :
  exists (w' : world) (second : envelope),
    @partialUpdateOrder demo create_forged = (Ok tt, w') /\
    trace w' =
      trace create_forged ++
      [Respond (BAD_REQUEST "Insufficient request parameters! id is required.");
       CallValidateParams
         (VObj (<["updatedBy" := VStr "64b000000000000000000a11"]>
                  (delete "addedBy" forged_order))) updateSchemaKeys;
       CallDb (DbUpdateOne
                 (<["_id" := get_field (params (req create_forged)) "id"]> ∅)
                 (<["updatedBy" := VStr "64b000000000000000000a11"]>
                    (delete "addedBy" forged_order)));
       Respond second].
Proof.
  apply (@partialUpdateOrder_missing_id_goes_on demo create_forged forged_order
           (VStr "64b000000000000000000a11") (Verdict true ""));
    reflexivity.
Defined.

(** An order created with a forged creator is stored as created by the
    caller. *)
Lemma addOrder_stamps_addedBy_witness :
  exists stored : jsobj,
    VObj (<["_id" := VStr "order-2"]>
            (<["addedBy" := VStr "64b000000000000000000a11"]> forged_order))
      = VObj stored /\
    db (snd (@addOrder demo create_forged)) = db create_forged ++ [stored] /\
    get_prop (user (req create_forged)) "id" = Ok (get_field stored "addedBy").
Proof.
  apply (@addOrder_stamps_addedBy demo create_forged
           (snd (@addOrder demo create_forged)));
    vm_compute; reflexivity.
Defined.

(** A malformed identity, a well-formed one no order has, and the identity
    of the second order of the shop. *)
Lemma getOrder_by_id_witness :
  (exists w',
     @getOrder demo get_malformed = (Ok tt, w') /\
     responses w' = responses get_malformed ++ [VALIDATION_ERROR "invalid objectId."] /\
     db_calls w' = db_calls get_malformed) /\
  (exists w',
     @getOrder demo get_absent = (Ok tt, w') /\
     responses w' = responses get_absent ++ [RECORD_NOT_FOUND]) /\
  (exists w',
     @getOrder demo get_order2 = (Ok tt, w') /\
     responses w' = responses get_order2 ++ [SUCCESS (VObj order2)]).
Proof.
  split; [|split].
  - apply (proj1 (@getOrder_by_id demo get_malformed)). reflexivity.
  - apply (proj1 (proj2 (@getOrder_by_id demo get_absent))); reflexivity.
  - apply (proj2 (proj2 (@getOrder_by_id demo get_order2)) order2); reflexivity.
Defined.

(** Counting with a filter no order of the shop matches. *)
Lemma getOrderCount_zero_is_success_witness :
  exists w',
    @getOrderCount demo count_none = (Ok tt, w') /\
    responses w' = responses count_none ++ [SUCCESS (VObj {["count" := VNum 0]})].
Proof.
  apply (@getOrderCount_zero_is_success demo count_none
           {["where" := VObj {["total" := VNum 99]}]} (Verdict true ""));
    reflexivity.
Defined.

(** Listing with [isCountOnly] set. *)
Lemma findAllOrder_count_only_witness :
  exists w',
    @findAllOrder demo list_count_only = (Ok tt, w') /\
    responses w' =
      responses list_count_only ++
      [SUCCESS (VObj {["totalRecords" :=
         VNum (Z.of_nat (length (@hits demo
           (object_or_empty (get_field count_only_filter "query"))
           (db list_count_only))))]})] /\
    db_calls w' =
      db_calls list_count_only ++
      [DbCount (object_or_empty (get_field count_only_filter "query"))] /\
    db w' = db list_count_only.
Proof.
  apply (@findAllOrder_count_only demo list_count_only count_only_filter
           (Verdict true ""));
    reflexivity.
Defined.

(** Creating an order with an empty body. *)
Lemma addOrder_invalid_not_persisted_witness :
  exists w',
    @addOrder demo create_empty = (Ok tt, w') /\
    responses w' =
      responses create_empty ++
      [VALIDATION_ERROR ("Invalid values in parameters, "
                         +:+ message (Verdict false "total is required"))] /\
    db w' = db create_empty /\
    db_calls w' = db_calls create_empty.
Proof.
  apply (@addOrder_invalid_not_persisted demo create_empty
           (Verdict false "total is required"));
    reflexivity.
Defined.

(** The body of a partial update that names a creator. *)
Lemma partialUpdateOrder_deletes_addedBy_in_place_witness :
  exists w',
    @partialUpdateOrder demo update_forged = (Ok tt, w') /\
    body (req w') = VObj (delete "addedBy" forged_order) /\
    get_prop (body (req w')) "addedBy" = Ok VUndefined /\
    body (req w') <> body (req update_forged).
Proof.
  apply (@partialUpdateOrder_deletes_addedBy_in_place demo update_forged
           forged_order (VStr "64b00000000000000000bad1"));
    reflexivity.
Defined.



(** ** The routes and the rate limiter *)

(** Every function of the controller is mounted on exactly one route, and
    that route runs [auth(PLATFORM.DEVICE)] and then [checkRolePermission]
    before it. *)
Theorem every_operation_is_routed_once_behind_guards (op : operation) :
  exists r : route,
    routes_to op = [r] /\
    route_chain r = [auth DEVICE; checkRolePermission; action op].
Proof. destruct op; eexists; split; reflexivity. Qed.

Lemma prefix_app (p s : string) :
  String.prefix p s = true <-> exists rest : string, s = p +:+ rest.
Proof.
  revert s. induction p as [|c p IH]; intros [|c' s]; cbn.
  - split; [now exists "" | reflexivity].
  - split; [now exists (String c' s) | reflexivity].
  - split; [intros H; discriminate H | intros [rest H]; discriminate H].
  - destruct (Ascii.ascii_dec c c') as [<-|Hne].
    + rewrite IH. split; intros [rest H]; exists rest.
      * now rewrite H.
      * now injection H.
    + split; [intros H; discriminate H|].
      intros [rest H]. injection H as Hc _. now destruct Hne.
Qed.

Lemma includes_spec (s sub : string) :
  includes s sub = true <-> exists before after : string, s = before +:+ sub +:+ after.
Proof.
  split.
  - induction s as [|c s IH]; cbn [includes]; rewrite orb_true_iff.
    + intros [H|H]; [|discriminate H].
      apply prefix_app in H as [rest ->]. now exists "", rest.
    + intros [H|H].
      * apply prefix_app in H as [rest H]. exists "", rest. exact H.
      * destruct (IH H) as (before & after & ->). now exists (String c before), after.
  - intros (before & after & ->). induction before as [|c before IH].
    + assert (H : String.prefix sub (sub +:+ after) = true)
        by (apply prefix_app; now exists after).
      change (includes (sub +:+ after) sub = true).
      destruct (sub +:+ after); cbn [includes]; now rewrite H.
    + change (includes (String c (before +:+ sub +:+ after)) sub = true).
      cbn [includes]. now rewrite IH, orb_true_r.
Qed.

(** The rate limiter skips exactly the requests whose URL holds [/swagger]
    or [/favicon] somewhere, in the path or after it. *)
Theorem skip_iff_url_mentions_swagger_or_favicon (url : string) :
  skip url = true <->
  exists before after : string,
    url = before +:+ "/swagger" +:+ after \/ url = before +:+ "/favicon" +:+ after.
Proof.
  unfold skip. split.
  - destruct (includes url "/swagger") eqn:Hs; cbn.
    + intros _. apply includes_spec in Hs as (before & after & ->).
      exists before, after. now left.
    + destruct (includes url "/favicon") eqn:Hf; [|done].
      intros _. apply includes_spec in Hf as (before & after & ->).
      exists before, after. now right.
  - intros (before & after & [-> | ->]).
    + now rewrite (proj2 (includes_spec _ "/swagger")) by eauto.
    + rewrite (proj2 (includes_spec _ "/favicon")) by eauto.
      now rewrite orb_true_r.
Qed.

Lemma includes_slash_hex (id sub : string) :
  hex_digits id = true -> String.prefix "/" sub = true -> includes id sub = false.
Proof.
  intros Hid Hsub. apply prefix_app in Hsub as [rest ->].
  change ("/" +:+ rest) with (String (Ascii.ascii_of_nat 47) rest).
  revert Hid. unfold hex_digits.
  induction id as [|c id IH]; cbn [includes]; [done|].
  cbn [String.list_ascii_of_string forallb]. rewrite andb_true_iff.
  intros [Hc Hid]. rewrite (IH Hid), orb_false_r.
  cbn [String.prefix]. destruct (Ascii.ascii_dec _ c) as [<-|]; [|done].
  discriminate Hc.
Qed.

Lemma hex_digits_start (id : string) :
  hex_digits id = true ->
  String.prefix "swagger" id = false /\ String.prefix "favicon" id = false.
Proof.
  unfold hex_digits. intros Hid. split.
  - destruct id as [|c1 id]; [done|]. cbn [String.prefix].
    destruct (Ascii.ascii_dec _ c1) as [<-|]; [discriminate Hid | done].
  - destruct id as [|c1 [|c2 [|c3 id]]]; cbn [String.prefix]; try done;
      repeat (destruct (Ascii.ascii_dec _ _) as [<-|]; [|done]); try done.
Qed.

(** Requests for an order by a hexadecimal identity are never skipped by
    the rate limiter, and neither are the three fixed order URLs: all of
    them count against the limit. *)
Theorem order_urls_are_rate_limited (id : string) :
  hex_digits id = true ->
  skip "/device/api/v1/order/create" = false /\
  skip "/device/api/v1/order/list" = false /\
  skip "/device/api/v1/order/count" = false /\
  skip ("/device/api/v1/order/" +:+ id) = false /\
  skip ("/device/api/v1/order/update/" +:+ id) = false /\
  skip ("/device/api/v1/order/partial-update/" +:+ id) = false.
Proof.
  intros Hid. destruct (hex_digits_start id Hid) as [Hs Hf].
  pose proof (includes_slash_hex id "/swagger" Hid eq_refl) as Hs'.
  pose proof (includes_slash_hex id "/favicon" Hid eq_refl) as Hf'.
  repeat split; try reflexivity; unfold skip;
    cbv beta iota delta [String.append]; cbn;
    now rewrite Hs, Hf, Hs', Hf'.
Qed.

(** ** The further properties on concrete requests *)

(** A partial update with its id. *)
Lemma one_response_per_request_witness :
  exists e : envelope,
    responses (snd (@controller demo OpPartialUpdateOrder update_forged)) =
    responses update_forged ++ [e].
Proof.
  apply (@one_response_per_request demo OpPartialUpdateOrder update_forged).
  intros _. reflexivity.
Defined.

(** Creating an order with an empty body. *)
Lemma validation_error_means_no_store_call_witness :
  db_calls (snd (@controller demo OpAddOrder create_empty)) = db_calls create_empty /\
  db (snd (@controller demo OpAddOrder create_empty)) = db create_empty.
Proof.
  apply (@validation_error_means_no_store_call demo OpAddOrder create_empty
           [VALIDATION_ERROR "Invalid values in parameters, total is required"]
           "Invalid values in parameters, total is required").
  - vm_compute. reflexivity.
  - constructor.
Defined.

Lemma partialUpdateOrder_is_updateOrder_without_addedBy_witness :
  @partialUpdateOrder demo update_forged =
  @updateOrder demo (set_body (VObj (delete "addedBy" forged_order)) update_forged).
Proof.
  apply (@partialUpdateOrder_is_updateOrder_without_addedBy demo update_forged
           forged_order);
    reflexivity.
Defined.

Lemma updateOrder_unknown_id_writes_nothing_witness :
  responses (snd (@updateOrder demo update_absent)) =
    responses update_absent ++ [RECORD_NOT_FOUND] /\
  db (snd (@updateOrder demo update_absent)) = db update_absent.
Proof.
  apply (@updateOrder_unknown_id_writes_nothing demo update_absent
           (VStr "64b000000000000000000a11") (Verdict true ""));
    reflexivity.
Defined.

(** The first order of the shop, updated. *)
Lemma updateOrder_success_stamps_updatedBy_witness :
  exists (i : nat) (old new : jsobj),
    VObj (<["updatedBy" := VStr "64b000000000000000000a11"]> forged_order ∪ order1)
      = VObj new /\
    db update_forged !! i = Some old /\
    @matches demo (<["_id" := get_field (params (req update_forged)) "id"]> ∅) old
      = true /\
    db (snd (@updateOrder demo update_forged)) = <[i := new]> (db update_forged) /\
    get_prop (user (req update_forged)) "id" = Ok (get_field new "updatedBy").
Proof.
  apply (@updateOrder_success_stamps_updatedBy demo update_forged).
  vm_compute. reflexivity.
Defined.

(** One order matches [where]; that none matches [query] changes nothing. *)
Lemma getOrderCount_counts_where_witness :
  responses (snd (@getOrderCount demo count_where)) =
    responses count_where ++
    [SUCCESS (VObj {["count" :=
       VNum (Z.of_nat (length (@hits demo
         (object_or_empty (get_field count_where_filter "where")) (db count_where))))]})] /\
  db_calls (snd (@getOrderCount demo count_where)) =
    db_calls count_where ++
    [DbCount (object_or_empty (get_field count_where_filter "where"))].
Proof.
  apply (@getOrderCount_counts_where demo count_where count_where_filter
           (Verdict true ""));
    reflexivity.
Defined.

Lemma findAllOrder_success_is_never_empty_witness :
  (exists n : Z,
     VObj (<["data" := VArr [VObj order2]]> {["totalRecords" := VNum 1]})
       = VObj {["totalRecords" := VNum n]}) \/
  (exists (first : value) (others : list value),
     get_prop (VObj (<["data" := VArr [VObj order2]]> {["totalRecords" := VNum 1]}))
       "data" = Ok (VArr (first :: others))).
Proof.
  apply (@findAllOrder_success_is_never_empty demo list_some).
  vm_compute. reflexivity.
Defined.

Lemma no_user_no_write_witness :
  (db_calls (snd (@addOrder demo update_anonymous)) = db_calls update_anonymous /\
   db (snd (@addOrder demo update_anonymous)) = db update_anonymous) /\
  (db_calls (snd (@updateOrder demo update_anonymous)) = db_calls update_anonymous /\
   db (snd (@updateOrder demo update_anonymous)) = db update_anonymous) /\
  (db_calls (snd (@partialUpdateOrder demo update_anonymous)) =
     db_calls update_anonymous /\
   db (snd (@partialUpdateOrder demo update_anonymous)) = db update_anonymous).
Proof.
  apply (@no_user_no_write demo update_anonymous
           (TypeError "Cannot read properties of undefined (reading 'id')")).
  reflexivity.
Defined.

Lemma addOrder_no_body_validates_empty_witness :
  exists rest : list event,
    trace (snd (@addOrder demo no_body)) =
      trace no_body ++ CallValidateParams (VObj ∅) schemaKeys :: rest.
Proof.
  apply (@addOrder_no_body_validates_empty demo no_body). reflexivity.
Defined.

Lemma filter_handlers_need_a_body_witness :
  (responses (snd (@findAllOrder demo no_body)) =
     responses no_body ++
     [INTERNAL_SERVER_ERROR
        (err_message (TypeError "Cannot read properties of undefined (reading 'query')"))] /\
   db_calls (snd (@findAllOrder demo no_body)) = db_calls no_body) /\
  (responses (snd (@getOrderCount demo no_body)) =
     responses no_body ++
     [INTERNAL_SERVER_ERROR
        (err_message (TypeError "Cannot read properties of undefined (reading 'where')"))] /\
   db_calls (snd (@getOrderCount demo no_body)) = db_calls no_body).
Proof.
  apply (@filter_handlers_need_a_body demo no_body (Verdict true "") (Verdict true ""));
    reflexivity.
Defined.

(** The identity of the first order of the shop. *)
Lemma order_urls_are_rate_limited_witness :
  skip "/device/api/v1/order/create" = false /\
  skip "/device/api/v1/order/list" = false /\
  skip "/device/api/v1/order/count" = false /\
  skip ("/device/api/v1/order/" +:+ "64b0000000000000000000c1") = false /\
  skip ("/device/api/v1/order/update/" +:+ "64b0000000000000000000c1") = false /\
  skip ("/device/api/v1/order/partial-update/" +:+ "64b0000000000000000000c1") = false.
Proof.
  apply (order_urls_are_rate_limited "64b0000000000000000000c1"). reflexivity.
Defined.

(** ** The handlers over an Express response, on concrete requests *)

(** A partial update sent with no id. *)
Lemma partialUpdateOrder_missing_id_error_escapes_witness :
  exists w' : world,
    @controller_on demo send_once OpPartialUpdateOrder
      (incoming (VObj forged_order) ∅ alice shop) = (Threw headers_sent, w') /\
    responses w' = [BAD_REQUEST "Insufficient request parameters! id is required."].
Proof.
  apply (@partialUpdateOrder_missing_id_error_escapes demo
           (VObj forged_order) ∅ alice shop).
  reflexivity.
Defined.

(** Creating an order while the store cannot be reached: the error of the
    store is caught and answered. *)
Lemma sending_once_no_error_escapes_witness :
  fst (@controller_on demo_offline send_once OpAddOrder
         (incoming (VObj forged_order) ∅ alice shop)) = Ok tt /\
  responses (snd (@controller_on demo_offline send_once OpAddOrder
                    (incoming (VObj forged_order) ∅ alice shop)))
    = [INTERNAL_SERVER_ERROR "connection lost"].
Proof.
  destruct (@sending_once_no_error_escapes demo_offline OpAddOrder
              (VObj forged_order) ∅ alice shop)
    as (w' & e & Hrun & _ & Hsent & Hcaught).
  - intros Hop. discriminate Hop.
  - rewrite Hrun. split; [reflexivity|]. cbn [snd]. rewrite Hsent. f_equal.
    apply (Hcaught (JsError "PersistenceError" "connection lost")
             (snd (@try_block_on demo_offline send_once OpAddOrder
                     (incoming (VObj forged_order) ∅ alice shop)))).
    vm_compute. reflexivity.
Defined.
